(** * ArrayField: a shallow embedding of django_pg/models/fields/array.py

    The Python class [ArrayField] wraps an element field (its [_of]
    attribute) and maps PostgreSQL arrays to Python lists.  Methods are
    embedded as functions into an error monad; the attributes of the element
    field are looked up the way Python does it (a missing one raises
    [AttributeError], [hasattr] tests for presence).  Django itself and South
    are not part of the repository: what the class needs from them is the
    interface [Host]. *)

From stdpp Require Import base option list strings gmap.
From Stdlib Require Import ZArith Ascii String.

Set Warnings "-register-all".

Open Scope Z_scope.
Open Scope string_scope.

(** ** Python values *)

(** The values that travel through the field: [None], booleans, integers,
    text, lists, tuples and dictionaries (as association lists, in insertion
    order).  Floats and user-defined classes are left out. *)
Inductive pyvalue : Type :=
| VNone
| VBool (b : bool)
| VInt (z : Z)
| VStr (s : string)
| VList (l : list pyvalue)
| VTuple (l : list pyvalue)
| VDict (d : list (pyvalue * pyvalue)).

(** ** Exceptions and the error monad *)

Inductive exn : Type :=
| TypeError (msg : string)
| ValueError (msg : string)
| AttributeError (attr : string)
| IndexError (msg : string)
| OtherError (cls msg : string).

Inductive result (A : Type) : Type :=
| Ok (a : A)
| Raise (e : exn).
Arguments Ok {A} a.
Arguments Raise {A} e.

#[global] Instance result_ret : MRet result := fun A a => Ok a.
#[global] Instance result_bind : MBind result := fun A B f m =>
  match m with
  | Ok a => f a
  | Raise e => Raise e
  end.
#[global] Instance result_fmap : FMap result := fun A B f m =>
  match m with
  | Ok a => Ok (f a)
  | Raise e => Raise e
  end.

(** The value of a call that returned, [None] for one that raised. *)
Definition returned {A} (m : result A) : option A :=
  match m with
  | Ok a => Some a
  | Raise _ => None
  end.

Definition raises_TypeError {A} (m : result A) : bool :=
  match m with
  | Raise (TypeError _) => true
  | _ => false
  end.

(** ** Built-ins of the interpreter used by the class *)

(** [bool(value)], as the test [not value] reads it. *)
Definition truthy (v : pyvalue) : bool :=
  match v with
  | VNone => false
  | VBool b => b
  | VInt z => negb (Z.eqb z 0)
  | VStr s => negb (String.eqb s EmptyString)
  | VList l | VTuple l => negb (Nat.eqb (List.length l) 0)
  | VDict d => negb (Nat.eqb (List.length d) 0)
  end.

(** [isinstance(value, (list, tuple))] and [isinstance(value, list)]. *)
Definition is_list_or_tuple (v : pyvalue) : bool :=
  match v with
  | VList _ | VTuple _ => true
  | _ => false
  end.

Definition is_list (v : pyvalue) : bool :=
  match v with
  | VList _ => true
  | _ => false
  end.

Definition type_name (v : pyvalue) : string :=
  match v with
  | VNone => "NoneType"
  | VBool _ => "bool"
  | VInt _ => "int"
  | VStr _ => "str"
  | VList _ => "list"
  | VTuple _ => "tuple"
  | VDict _ => "dict"
  end.

Fixpoint chars (s : string) : list pyvalue :=
  match s with
  | EmptyString => []
  | String c s' => VStr (String c EmptyString) :: chars s'
  end.

(** [list(value)]: the items of an iterable, [TypeError] otherwise. *)
Definition py_list (v : pyvalue) : result (list pyvalue) :=
  match v with
  | VList l | VTuple l => Ok l
  | VStr s => Ok (chars s)
  | VDict d => Ok (d.*1)
  | _ => Raise (TypeError ("'" +:+ type_name v +:+ "' object is not iterable"))
  end.

(** [t[i]] on a tuple. *)
Definition py_index (t : list pyvalue) (i : nat) : result pyvalue :=
  match t !! i with
  | Some v => Ok v
  | None => Raise (IndexError "tuple index out of range")
  end.

(** [int(text)]: surrounding white space is dropped, then an optional sign
    and a non-empty run of decimal digits is read. *)
Definition is_space (c : ascii) : bool :=
  let n := nat_of_ascii c in
  (Nat.leb 9 n && Nat.leb n 13) || Nat.eqb n 32.

Fixpoint lstrip (s : string) : string :=
  match s with
  | String c s' => if is_space c then lstrip s' else s
  | EmptyString => EmptyString
  end.

Fixpoint rstrip (s : string) : string :=
  match s with
  | String c s' =>
      match rstrip s' with
      | EmptyString => if is_space c then EmptyString else String c EmptyString
      | r => String c r
      end
  | EmptyString => EmptyString
  end.

Definition digit (c : ascii) : option Z :=
  let n := nat_of_ascii c in
  if Nat.leb 48 n && Nat.leb n 57 then Some (Z.of_nat n - 48) else None.

Fixpoint digits (acc : Z) (s : string) : option Z :=
  match s with
  | EmptyString => Some acc
  | String c s' => d ← digit c; digits (10 * acc + d) s'
  end.

Definition unsigned_literal (s : string) : option Z :=
  match s with
  | EmptyString => None
  | _ => digits 0 s
  end.

Definition int_literal (s : string) : option Z :=
  match rstrip (lstrip s) with
  | String "-"%char r => Z.opp <$> unsigned_literal r
  | String "+"%char r => unsigned_literal r
  | r => unsigned_literal r
  end.

(** [int(value)]: [ValueError] for text that is no integer literal,
    [TypeError] for a value that is neither text nor a number. *)
Definition py_int (v : pyvalue) : result Z :=
  match v with
  | VInt z => Ok z
  | VBool b => Ok (if b then 1 else 0)
  | VStr s =>
      match int_literal s with
      | Some z => Ok z
      | None => Raise (ValueError "invalid literal for int() with base 10")
      end
  | _ => Raise (TypeError ("int() argument must be a string or a number, not '"
                           +:+ type_name v +:+ "'"))
  end.

(** ** Objects: element fields and their classes *)

(** A database connection, as far as a field looks at it. *)
Record connection : Type := { vendor : string }.

(** [django.core.management.color]: the two styles. *)
Inductive style : Type := no_style | color_style.

(** An element field instance, duck-typed: each method the array field may
    look up is present ([Some]) or not ([None]). *)
Record field : Type := {
  field_db_type : option (connection → result string);
  field_get_prep_value : option (pyvalue → result pyvalue);
  field_to_python : option (pyvalue → result pyvalue);
  field_get_prep_lookup : option (string → pyvalue → result pyvalue);
  field_create_type_sql : option (connection → style → bool → result pyvalue);
}.

(** What [self._of] can hold: a field instance, or plain data (a tuple left
    as it is when South is not installed, a number, ...), which has none of
    the methods. *)
Inductive object : Type :=
| Instance (f : field)
| Plain (v : pyvalue).

(** A field class: calling it with positional and keyword arguments builds
    an instance, or raises. *)
Record field_class : Type := {
  construct : pyvalue → pyvalue → result field;
}.

(** The [of] argument of the constructor: a type, or any other object. *)
Inductive of_arg : Type :=
| OfType (c : field_class)
| OfObject (o : object).

Definition attr {A} (proj : field → option A) (o : object) : option A :=
  match o with
  | Instance f => proj f
  | Plain _ => None
  end.

(** [o.name]: the attribute, or [AttributeError]. *)
Definition getattr {A} (name : string) (proj : field → option A) (o : object)
  : result A :=
  match attr proj o with
  | Some a => Ok a
  | None => Raise (AttributeError name)
  end.

(** [self._of.get_prep_value(item)], [self._of.to_python(i)] and
    [self._of.get_prep_lookup(lookup_type, i)]. *)
Definition call_get_prep_value (o : object) (item : pyvalue) : result pyvalue :=
  f ← getattr "get_prep_value" field_get_prep_value o; f item.

Definition call_to_python (o : object) (i : pyvalue) : result pyvalue :=
  f ← getattr "to_python" field_to_python o; f i.

Definition call_get_prep_lookup (o : object) (lookup_type : string) (i : pyvalue)
  : result pyvalue :=
  f ← getattr "get_prep_lookup" field_get_prep_lookup o; f lookup_type i.

(** [isinstance(o, tuple)] *)
Definition isinstance_tuple (o : object) : bool :=
  match o with
  | Plain (VTuple _) => true
  | _ => false
  end.

(** ** The host: Django's [models] and South *)

(** What the module imports and inherits.  [Field__init__] and
    [Field_get_prep_lookup] are the methods of [models.Field] reached through
    [super()]; the latter is handed the instance's own [get_prep_value],
    which Django's implementation calls back.  [base] is the state
    [models.Field.__init__] sets up and [base_null] its [null] attribute,
    which Django sets from the [null] keyword ([False] when absent). *)
Class Host : Type := {
  south_installed : bool;
  ask_for_it_by_name : pyvalue → result field_class;
  IntegerField : field_class;
  base : Type;
  base_null : base → bool;
  Field__init__ : gmap string pyvalue → result base;
  Field_get_prep_lookup :
    (pyvalue → result pyvalue) → string → pyvalue → result pyvalue;
  Field__init___null : ∀ kwargs b,
    Field__init__ kwargs = Ok b →
    base_null b = from_option truthy false (kwargs !! "null");
}.

(** ** class ArrayField *)

Record ArrayField `{Host} : Type := {
  _of : object;
  super_state : base;
}.

Definition null `{Host} (self : ArrayField) : bool :=
  base_null (super_state self).

Section methods.
Context `{Host}.

(** A South triple brought back to life: the class [gf(of[0])] called with
    the positional arguments [of[1]] and the keyword arguments [of[2]]. *)
Definition resurrect (of_ : list pyvalue) : result field :=
  name ← py_index of_ 0;
  cls ← ask_for_it_by_name name;
  args ← py_index of_ 1;
  kwargs ← py_index of_ 2;
  construct cls args kwargs.

(** The default of the [of] parameter (written [of_] below, [of] being a
    keyword here). *)
Definition of_default : of_arg := OfType IntegerField.

Definition __init__ (of_ : of_arg) (kwargs : gmap string pyvalue)
  : result ArrayField :=
  of_ ← match of_ with
       | OfObject (Plain (VTuple t)) =>
           if south_installed
           then f ← resurrect t; mret (OfObject (Instance f))
           else mret of_
       | _ => mret of_
       end;
  o ← match of_ with
      | OfType c => f ← construct c (VTuple []) (VDict []); mret (Instance f)
      | OfObject o => mret o
      end;
  let kwargs := <["null" := VBool true]> kwargs in
  b ← Field__init__ kwargs;
  mret {| _of := o; super_state := b |}.

Definition create_type_sql (self : ArrayField) (connection : connection)
    (style : style) (only_if_not_exists : bool) : result pyvalue :=
  match attr field_create_type_sql (_of self) with
  | Some f => f connection style only_if_not_exists
  | None => mret (VStr EmptyString)
  end.

Definition db_type (self : ArrayField) (connection : connection)
  : result string :=
  f ← getattr "db_type" field_db_type (_of self);
  db_subfield ← f connection;
  mret (db_subfield +:+ "[]").

Definition get_db_lookup_expression (self : ArrayField) (lookup_type : string)
    (value : pyvalue) (connection : connection) : result pyvalue :=
  if decide (lookup_type = "exact") then
    t ← db_type self connection;
    mret (VStr ("{field} = {value}::" +:+ t))
  else if decide (lookup_type = "contains") then
    if is_list_or_tuple value then
      t ← db_type self connection;
      mret (VStr ("{field} @> {value}::" +:+ t))
    else mret (VStr "{value} = ANY({field})")
  else if decide (lookup_type = "len") then
    mret (VStr "{value} = ARRAY_LENGTH({field}, 1)")
  else mret VNone.

(** The loop of [get_prep_value]: [answer] grows by one coerced item per
    round. *)
Fixpoint get_prep_value_loop (self : ArrayField) (items answer : list pyvalue)
  : result (list pyvalue) :=
  match items with
  | [] => mret answer
  | item :: items =>
      x ← call_get_prep_value (_of self) item;
      get_prep_value_loop self items (answer ++ [x])
  end.

Definition get_prep_value (self : ArrayField) (value : pyvalue)
  : result pyvalue :=
  if negb (truthy value) then mret (VList [])
  else
    items ← py_list value;
    answer ← get_prep_value_loop self items [];
    mret (VList answer).

(** [[self._of.get_prep_lookup('exact', i) for i in value]] when [value] is
    a list or a tuple, [value] itself otherwise. *)
Definition coerce_lookup_items (self : ArrayField) (value : pyvalue)
  : result pyvalue :=
  match value with
  | VList l | VTuple l =>
      VList <$> mapM (λ i, call_get_prep_lookup (_of self) "exact" i) l
  | _ => mret value
  end.

Definition get_prep_lookup (self : ArrayField) (lookup_type : string)
    (value : pyvalue) : result pyvalue :=
  if decide (lookup_type = "len") then
    match py_int value with
    | Ok n => mret (VInt n)
    | Raise (ValueError _) => Raise (TypeError "__len only supports integers.")
    | Raise e => Raise e
    end
  else if decide (lookup_type ∉ ["exact"; "contains"]) then
    Raise (TypeError ("Unsupported lookup type: " +:+ lookup_type))
  else
    value ← coerce_lookup_items self value;
    Field_get_prep_lookup (get_prep_value self) lookup_type value.

Definition to_python (self : ArrayField) (value : pyvalue)
  : result pyvalue :=
  match value with
  | VList l =>
      VList <$> mapM (λ i, call_to_python (_of self) i) l
  | _ => mret VNone
  end.

(** The two sides of the round trip: [to_python(get_prep_value(value))], and
    the list comprehension that sends each item through the element's
    [get_prep_value] and then its [to_python]. *)
Definition roundtrip (self : ArrayField) (value : pyvalue) : result pyvalue :=
  get_prep_value self value ≫= to_python self.

Definition elementwise (self : ArrayField) (items : list pyvalue)
  : result pyvalue :=
  VList <$> mapM (λ item, call_get_prep_value (_of self) item
                           ≫= call_to_python (_of self)) items.

(** Does the element have the three methods the conversions and [db_type]
    call on it? *)
Definition provides_minimum (o : object) : bool :=
  bool_decide (is_Some (attr field_db_type o))
  && bool_decide (is_Some (attr field_get_prep_value o))
  && bool_decide (is_Some (attr field_to_python o)).

End methods.

(** ** A reference host

    A small stand-in for Django on PostgreSQL, used to run the class on
    concrete inputs: [models.IntegerField] with its [int] coercion, and the
    two branches of [models.Field.get_prep_lookup] the array field can reach
    ([contains] returns the value, [exact] calls [get_prep_value]). *)
Module reference.

Definition integer_get_prep_value (v : pyvalue) : result pyvalue :=
  match v with
  | VNone => Ok VNone
  | _ => VInt <$> py_int v
  end.

Definition integer_to_python (v : pyvalue) : result pyvalue :=
  match v with
  | VNone => Ok VNone
  | _ =>
      match py_int v with
      | Ok n => Ok (VInt n)
      | Raise _ => Raise (OtherError "ValidationError" "value must be an integer.")
      end
  end.

Definition integer_field : field := {|
  field_db_type := Some (λ _, Ok "integer");
  field_get_prep_value := Some integer_get_prep_value;
  field_to_python := Some integer_to_python;
  field_get_prep_lookup := Some (λ _ v, integer_get_prep_value v);
  field_create_type_sql := None;
|}.

Definition Integer : field_class := {|
  construct := λ _ _, Ok integer_field;
|}.

(** An element of a user-defined database type, which brings its own DDL. *)
Definition mood_ddl (only_if_not_exists : bool) : string :=
  if only_if_not_exists
  then "CREATE TYPE mood AS ENUM ('sad', 'happy') -- if missing"
  else "CREATE TYPE mood AS ENUM ('sad', 'happy')".

Definition mood_field : field := {|
  field_db_type := Some (λ _, Ok "mood");
  field_get_prep_value := Some Ok;
  field_to_python := Some Ok;
  field_get_prep_lookup := Some (λ _ v, Ok v);
  field_create_type_sql := Some (λ _ _ o, Ok (VStr (mood_ddl o)));
|}.

(** An object with none of the methods, such as [object()]. *)
Definition bare : field := {|
  field_db_type := None;
  field_get_prep_value := None;
  field_to_python := None;
  field_get_prep_lookup := None;
  field_create_type_sql := None;
|}.

Definition by_name (name : pyvalue) : result field_class :=
  match name with
  | VStr "django.db.models.fields.IntegerField" => Ok Integer
  | _ => Raise (OtherError "ImportError" "no such name")
  end.

Definition base_get_prep_lookup (get_prep_value : pyvalue → result pyvalue)
    (lookup_type : string) (v : pyvalue) : result pyvalue :=
  if decide (lookup_type ∈ ["regex"; "iregex"; "month"; "day"; "week_day";
      "search"; "contains"; "icontains"; "iexact"; "startswith";
      "istartswith"; "endswith"; "iendswith"; "isnull"])
  then Ok v
  else if decide (lookup_type ∈ ["exact"; "gt"; "gte"; "lt"; "lte"])
  then get_prep_value v
  else Raise (TypeError ("Field has invalid lookup: " +:+ lookup_type)).

Definition base_init (kwargs : gmap string pyvalue)
  : result (gmap string pyvalue) := Ok kwargs.

Definition stored_null (b : gmap string pyvalue) : bool :=
  from_option truthy false (b !! "null").

Definition base_init_null (kwargs b : gmap string pyvalue)
    (Hinit : base_init kwargs = Ok b)
  : stored_null b = from_option truthy false (kwargs !! "null") :=
  match Hinit in _ = r
        return match r with
               | Ok b' => stored_null b'
                          = from_option truthy false (kwargs !! "null")
               | Raise _ => True
               end
  with eq_refl => eq_refl end.

Definition host (south : bool) : Host := {|
  south_installed := south;
  ask_for_it_by_name := by_name;
  IntegerField := Integer;
  base := gmap string pyvalue;
  base_null := stored_null;
  Field__init__ := base_init;
  Field_get_prep_lookup := base_get_prep_lookup;
  Field__init___null := base_init_null;
|}.

Definition pg : connection := {| vendor := "postgresql" |}.

(** [ArrayField(of=f)] once built, on the host without South. *)
Definition array_of (f : field) : @ArrayField (host false) :=
  @Build_ArrayField (host false) (Instance f) (<["null" := VBool true]> ∅).

(** [ArrayField()], the array of integers. *)
Definition ints : @ArrayField (host false) := array_of integer_field.

End reference.

(** ** The remaining methods *)

Section more_methods.
Context `{Host}.

(** An array field seen as an element: the methods an enclosing array field
    looks up on it are its own, all of them present. *)
Definition as_field (self : ArrayField) : field := {|
  field_db_type := Some (db_type self);
  field_get_prep_value := Some (get_prep_value self);
  field_to_python := Some (to_python self);
  field_get_prep_lookup := Some (get_prep_lookup self);
  field_create_type_sql := Some (create_type_sql self);
|}.

(** [models.Field.get_db_prep_lookup], bound to the instance. *)
Variable Field_get_db_prep_lookup :
  ArrayField → string → pyvalue → connection → bool → result pyvalue.

Definition get_db_prep_lookup (self : ArrayField) (lookup_type : string)
    (value : pyvalue) (connection : connection) (prepared : bool)
  : result pyvalue :=
  if decide (lookup_type = "contains") then mret (VList [value])
  else Field_get_db_prep_lookup self lookup_type value connection prepared.

(** [south.modelsinspector.introspector]: the positional and the keyword
    arguments a field was built with. *)
Variable introspector : object → result (pyvalue * pyvalue).

(** [__module__] and [__name__] of the class of a field instance. *)
Variable class_names : field → string * string.

(** [o.__class__.__module__] and [o.__class__.__name__]. *)
Definition class_of (o : object) : string * string :=
  match o with
  | Instance f => class_names f
  | Plain v => ("builtins", type_name v)
  end.

Definition dotted (names : string * string) : string :=
  names.1 +:+ "." +:+ names.2.

(** [south_field_triple]; [cls] stands for [self.__class__], which is
    [array_class] unless the field belongs to a subclass. *)
Definition array_class : string * string :=
  ("django_pg.models.fields.array", "ArrayField").

Definition south_field_triple (cls : string * string) (self : ArrayField)
  : result pyvalue :=
  double ← introspector (_of self);
  mret (VTuple [
    VStr (dotted cls);
    VList [];
    VDict [(VStr "of",
            VTuple [VStr (dotted (class_of (_of self))); double.1; double.2])]
  ]).

End more_methods.

(** [needle] occurs in [text]. *)
Definition occurs_in (needle text : string) : Prop :=
  ∃ before after, text = before +:+ needle +:+ after.

(** More of the reference host: what South's introspection answers for an
    integer field (built with no arguments), and two more array fields. *)
Module fixtures.

Definition introspector (o : object) : result (pyvalue * pyvalue) :=
  Ok (VList [], VDict []).

Definition class_names (f : field) : string * string :=
  ("django.db.models.fields", "IntegerField").

(** [ArrayField()] on the host with South. *)
Definition ints : @ArrayField (reference.host true) :=
  @Build_ArrayField (reference.host true) (Instance reference.integer_field)
    (<["null" := VBool true]> ∅).

(** An array of arrays of integers, on the host without South. *)
Definition matrix : @ArrayField (reference.host false) :=
  @Build_ArrayField (reference.host false)
    (Instance (@as_field (reference.host false) reference.ints))
    (<["null" := VBool true]> ∅).

End fixtures.

(** * Properties *)

(** ** The error monad and [mapM] *)

Lemma mapM_cons {A B} (f : A → result B) (x : A) (l : list A) :
  mapM f (x :: l) = y ← f x; k ← mapM f l; mret (y :: k).
Proof. reflexivity. Qed.

Section result_facts.
Context {A B C : Type}.

Lemma fmap_Ok_inv (g : A → B) (m : result A) (b : B) :
  g <$> m = Ok b → ∃ a, m = Ok a ∧ b = g a.
Proof. destruct m as [a|e]; simpl; [|discriminate]. intros [= <-]. eauto. Qed.

Lemma bind_Ok_inv (m : result A) (k : A → result B) (b : B) :
  m ≫= k = Ok b → ∃ a, m = Ok a ∧ k a = Ok b.
Proof. destruct m as [a|e]; simpl; [eauto|discriminate]. Qed.

(** Running all of [f] and then all of [g] returns what running [g] right
    after [f] on each item returns; when both raise, the exceptions may
    differ, which [returned] leaves out. *)
Lemma returned_mapM_compose (f : A → result B) (g : B → result C) (l : list A) :
  returned (mapM f l ≫= mapM g) = returned (mapM (λ x, f x ≫= g) l).
Proof.
  induction l as [|x l IH]; [reflexivity|].
  rewrite !mapM_cons.
  destruct (f x) as [y|e]; simpl; [|reflexivity].
  destruct (mapM f l) as [k|e]; simpl in *.
  - destruct (g y) as [z|e]; simpl; [|reflexivity].
    destruct (mapM g k), (mapM _ l); simpl in *; congruence.
  - destruct (g y) as [z|e']; simpl; [|reflexivity].
    destruct (mapM _ l); simpl in *; congruence.
Qed.

End result_facts.

(** ** The methods *)

Section properties.
Context `{Host}.
Implicit Types (self : ArrayField) (v : pyvalue) (l : list pyvalue).

(** The loop with its accumulator is [mapM] over the items. *)
Lemma get_prep_value_loop_mapM self l answer :
  get_prep_value_loop self l answer
  = (answer ++.) <$> mapM (call_get_prep_value (_of self)) l.
Proof.
  revert answer. induction l as [|item l IH]; intros answer.
  - simpl. by rewrite app_nil_r.
  - rewrite mapM_cons. simpl.
    destruct (call_get_prep_value (_of self) item) as [x|e]; simpl; [|done].
    rewrite IH. destruct (mapM _ l) as [k|e]; simpl; [|done].
    by rewrite <- app_assoc.
Qed.

Lemma get_prep_value_items self v l :
  truthy v = true → py_list v = Ok l →
  get_prep_value self v = VList <$> mapM (call_get_prep_value (_of self)) l.
Proof.
  intros Ht Hl. unfold get_prep_value. rewrite Ht, Hl. simpl.
  rewrite get_prep_value_loop_mapM. by destruct (mapM _ l).
Qed.

Lemma get_prep_value_falsy self v :
  truthy v = false → get_prep_value self v = Ok (VList []).
Proof. intros Ht. unfold get_prep_value. by rewrite Ht. Qed.

Lemma to_python_list self l :
  to_python self (VList l) = VList <$> mapM (call_to_python (_of self)) l.
Proof. reflexivity. Qed.

Lemma to_python_not_list self v :
  is_list v = false → to_python self v = Ok VNone.
Proof. by destruct v. Qed.

Lemma roundtrip_items self v l :
  py_list v = Ok l → is_list_or_tuple v = true →
  returned (roundtrip self v) = returned (elementwise self l).
Proof.
  intros Hl Hv. unfold roundtrip, elementwise.
  destruct (truthy v) eqn:Ht.
  - rewrite (get_prep_value_items _ _ l) by done.
    pose proof (returned_mapM_compose (call_get_prep_value (_of self))
                  (call_to_python (_of self)) l) as Hc.
    destruct (mapM (call_get_prep_value (_of self)) l) as [k|e]; simpl in *.
    + destruct (mapM (call_to_python (_of self)) k), (mapM _ l);
        simpl in *; congruence.
    + destruct (mapM _ l); simpl in *; congruence.
  - rewrite get_prep_value_falsy by done.
    destruct v as [| | | |[|x k]|[|x k]|]; simpl in *; try discriminate;
      by injection Hl as <-.
Qed.

End properties.

(** ** Value conversion *)

Section conversion.
Context `{Host}.
Implicit Types (self : ArrayField) (v : pyvalue) (l : list pyvalue).

(** C1: for every element field and every ordered sequence of values, given
    as a list or as a tuple, [to_python] applied to the result of
    [get_prep_value] returns the list of the element's [to_python] after its
    [get_prep_value] on each item, in order and with duplicates kept; one
    side raises exactly when the other does. *)
Theorem roundtrip_elementwise self l :
  returned (roundtrip self (VList l)) = returned (elementwise self l)
  ∧ returned (roundtrip self (VTuple l)) = returned (elementwise self l).
Proof. split; by apply roundtrip_items. Qed.

(** C2: [to_python] maps a list item by item, but a value that is not a
    list is not handed back: the wire text of an array and a tuple both come
    out as [None]. *)
Theorem to_python_drops_non_list self :
  to_python self (VStr "{1,2,3}") = Ok VNone
  ∧ to_python self (VTuple [VInt 1; VInt 2]) = Ok VNone.
Proof. split; by apply to_python_not_list. Qed.

(** C7: for every falsy input ([None], [False], [0], empty text, empty
    list, tuple or dictionary) [get_prep_value] returns the empty list, and
    not [None]. *)
Theorem get_prep_value_falsy_empty self v :
  truthy v = false →
  get_prep_value self v = Ok (VList []) ∧ get_prep_value self v ≠ Ok VNone.
Proof.
  intros Ht. rewrite get_prep_value_falsy by done. split; [done|discriminate].
Qed.

(** X4: whatever the input, a call of [get_prep_value] that returns,
    returns a list: never [None], and a list for a tuple too. *)
Lemma get_prep_value_returns_list self v r :
  get_prep_value self v = Ok r → is_list r = true.
Proof.
  unfold get_prep_value. destruct (truthy v); simpl.
  - intros (items & _ & Hr)%bind_Ok_inv.
    apply bind_Ok_inv in Hr as (answer & _ & [= <-]). done.
  - by intros [= <-].
Qed.

End conversion.

(** ** SQL types and DDL *)

Section sql.
Context `{Host}.
Implicit Types (self : ArrayField) (v : pyvalue) (connection : connection).

(** C6: the array's [db_type] is the element's [db_type] string followed by
    the two characters of the array suffix, and nothing else. *)
Theorem db_type_appends_brackets self connection f s :
  attr field_db_type (_of self) = Some f →
  f connection = Ok s →
  db_type self connection = Ok (s +:+ "[]").
Proof.
  intros Hf Hs. unfold db_type, getattr. rewrite Hf. simpl. by rewrite Hs.
Qed.

Lemma db_type_missing self connection :
  attr field_db_type (_of self) = None →
  db_type self connection = Raise (AttributeError "db_type").
Proof. intros Hf. unfold db_type, getattr. by rewrite Hf. Qed.

(** C8: [create_type_sql] returns the empty string when the element has no
    [create_type_sql], and otherwise what the element's own
    [create_type_sql] returns for the same connection, style and
    [only_if_not_exists]. *)
Theorem create_type_sql_delegates self connection st only_if_not_exists :
  (attr field_create_type_sql (_of self) = None →
   create_type_sql self connection st only_if_not_exists
   = Ok (VStr EmptyString))
  ∧ (∀ g, attr field_create_type_sql (_of self) = Some g →
     create_type_sql self connection st only_if_not_exists
     = g connection st only_if_not_exists).
Proof. unfold create_type_sql. split; [intros ->|intros g ->]; done. Qed.

(** C5: for the [contains] lookup, a list or tuple operand gives the
    containment template with the cast to the array's SQL type, and any
    other operand gives the membership template. *)
Theorem contains_expression self connection v :
  (is_list_or_tuple v = true → ∀ t, db_type self connection = Ok t →
   get_db_lookup_expression self "contains" v connection
   = Ok (VStr ("{field} @> {value}::" +:+ t)))
  ∧ (is_list_or_tuple v = false →
     get_db_lookup_expression self "contains" v connection
     = Ok (VStr "{value} = ANY({field})")).
Proof.
  unfold get_db_lookup_expression.
  destruct (decide ("contains" = "exact")) as [[=]|_].
  destruct (decide ("contains" = "contains")) as [_|[]]; [|done].
  split; [intros -> t ->|intros ->]; done.
Qed.

End sql.

(** ** Lookup preparation *)

Lemma py_int_raises v e :
  py_int v = Raise e → (∃ m, e = ValueError m) ∨ (∃ m, e = TypeError m).
Proof.
  destruct v; simpl; try (intros [= <-]; eauto; fail); try discriminate.
  destruct (int_literal s); [discriminate|]. intros [= <-]. eauto.
Qed.

Section lookups.
Context `{Host}.
Implicit Types (self : ArrayField) (v : pyvalue) (kind : string).

Lemma get_prep_lookup_len self v :
  get_prep_lookup self "len" v
  = match py_int v with
    | Ok n => Ok (VInt n)
    | Raise (ValueError _) => Raise (TypeError "__len only supports integers.")
    | Raise e => Raise e
    end.
Proof. reflexivity. Qed.

(** C4, as the code has it: [get_prep_lookup] raises a [TypeError] of its own
    in two cases, a kind outside exact, contains and len, and the kind len
    with an operand [int] does not convert; for len with a convertible
    operand it returns the integer; for exact and contains it raises
    nothing itself and its outcome is the outcome of the element's
    [get_prep_lookup] on the items followed by the superclass's
    [get_prep_lookup]. *)
Theorem get_prep_lookup_outcomes self kind v :
  (kind = "len" → ∀ n, py_int v = Ok n →
   get_prep_lookup self kind v = Ok (VInt n))
  ∧ (kind = "len" → returned (py_int v) = None →
     raises_TypeError (get_prep_lookup self kind v) = true)
  ∧ (kind ∉ ["exact"; "contains"; "len"] →
     get_prep_lookup self kind v
     = Raise (TypeError ("Unsupported lookup type: " +:+ kind)))
  ∧ (kind ∈ ["exact"; "contains"] →
     get_prep_lookup self kind v
     = coerce_lookup_items self v
       ≫= Field_get_prep_lookup (get_prep_value self) kind).
Proof.
  repeat split.
  - intros -> n Hn. by rewrite get_prep_lookup_len, Hn.
  - intros -> Hv. rewrite get_prep_lookup_len.
    destruct (py_int v) as [n|e] eqn:Hn; [discriminate|].
    by destruct (py_int_raises _ _ Hn) as [[m ->]|[m ->]].
  - intros Hk. unfold get_prep_lookup.
    rewrite !not_elem_of_cons in Hk. destruct Hk as (He & Hc & Hl & _).
    destruct (decide (kind = "len")) as [->|_]; [done|].
    destruct (decide (kind ∉ ["exact"; "contains"])) as [_|Hin]; [done|].
    exfalso. apply Hin. rewrite !not_elem_of_cons.
    repeat split; auto using not_elem_of_nil.
  - intros Hk. unfold get_prep_lookup.
    rewrite !elem_of_cons, elem_of_nil in Hk.
    destruct (decide (kind = "len")) as [->|_].
    { by destruct Hk as [[=]|[[=]|[]]]. }
    destruct (decide (kind ∉ ["exact"; "contains"])) as [Hn|_]; [|done].
    exfalso. rewrite !not_elem_of_cons in Hn. tauto.
Qed.

End lookups.

(** ** Construction *)

Section construction.
Context `{Host}.
Implicit Types (self : ArrayField) (kwargs : gmap string pyvalue).

(** C3, as the code has it: the constructor never looks at what the element
    provides.  An element object that is no South triple is stored as it is
    and the outcome is that of the superclass initialiser on the keyword
    options with [null] set; an element without [db_type] shows when
    [db_type] is called, as an [AttributeError]. *)
Theorem init_stores_any_object (o : object) kwargs :
  isinstance_tuple o && south_installed = false →
  __init__ (OfObject o) kwargs
  = (b ← Field__init__ (<["null" := VBool true]> kwargs);
     mret {| _of := o; super_state := b |})
  ∧ ∀ b connection,
      attr field_db_type o = None →
      db_type {| _of := o; super_state := b |} connection
      = Raise (AttributeError "db_type").
Proof.
  intros Ho. split; [|intros; by apply db_type_missing].
  unfold __init__.
  destruct o as [f|[]]; try done.
  simpl in Ho. by rewrite Ho.
Qed.

Lemma init_super_call (of_ : of_arg) kwargs self :
  __init__ of_ kwargs = Ok self →
  Field__init__ (<["null" := VBool true]> kwargs) = Ok (super_state self).
Proof.
  unfold __init__.
  intros (of' & _ & Hrest)%bind_Ok_inv.
  apply bind_Ok_inv in Hrest as (o & _ & Hrest).
  apply bind_Ok_inv in Hrest as (b & Hb & [= <-]). done.
Qed.

(** C9: every array field that gets constructed has [null] true: the
    superclass initialiser is run on the keyword options with [null]
    overwritten by [True], whatever the caller passed. *)
Theorem init_forces_null (of_ : of_arg) kwargs self :
  __init__ of_ kwargs = Ok self →
  Field__init__ (<["null" := VBool true]> kwargs) = Ok (super_state self)
  ∧ null self = true.
Proof.
  intros Hb%init_super_call. split; [done|].
  unfold null. rewrite (Field__init___null _ _ Hb).
  by rewrite lookup_insert_eq.
Qed.

(** C10: without an [of] argument the element is an instance of
    [models.IntegerField] built with no arguments, and the array's
    [db_type] is that instance's [db_type] with the array suffix. *)
Theorem init_default_element kwargs self connection :
  __init__ of_default kwargs = Ok self →
  ∃ f, construct IntegerField (VTuple []) (VDict []) = Ok f
       ∧ _of self = Instance f
       ∧ ∀ g t, field_db_type f = Some g → g connection = Ok t →
                db_type self connection = Ok (t +:+ "[]").
Proof.
  unfold __init__, of_default. simpl.
  intros (f & Hf & Hrest)%bind_Ok_inv.
  apply bind_Ok_inv in Hrest as (b & _ & [= <-]).
  destruct (construct IntegerField _ _) as [f'|e] eqn:Hc; [|discriminate].
  injection Hf as <-.
  exists f'. repeat split.
  intros g t Hg Ht. by apply (db_type_appends_brackets _ _ g).
Qed.

End construction.

(** ** The class at work on the reference host *)

Section examples.
Import reference.

Example int_of_text :
  py_int (VStr "4") = Ok 4 ∧ py_int (VStr " -12 ") = Ok (-12)
  ∧ returned (py_int (VStr "abc")) = None
  ∧ returned (py_int (VStr EmptyString)) = None.
Proof. repeat split. Qed.

Example integer_array_scenario :
  db_type ints pg = Ok "integer[]"
  ∧ get_prep_value ints (VList [VInt 3; VInt 1; VInt 2])
    = Ok (VList [VInt 3; VInt 1; VInt 2])
  ∧ to_python ints (VList [VInt 3; VInt 1; VInt 2])
    = Ok (VList [VInt 3; VInt 1; VInt 2])
  ∧ get_db_lookup_expression ints "len" (VInt 3) pg
    = Ok (VStr "{value} = ARRAY_LENGTH({field}, 1)")
  ∧ get_db_lookup_expression ints "exact" (VList [VInt 3]) pg
    = Ok (VStr "{field} = {value}::integer[]")
  ∧ get_db_lookup_expression ints "startswith" (VInt 3) pg = Ok VNone.
Proof. repeat split. Qed.

Example roundtrip_coerces_text :
  roundtrip ints (VTuple [VStr "3"; VInt 1; VInt 1])
  = Ok (VList [VInt 3; VInt 1; VInt 1]).
Proof. reflexivity. Qed.

Example south_triple_resurrected :
  _of <$> returned (@__init__ (host true)
      (OfObject (Plain (VTuple [VStr "django.db.models.fields.IntegerField";
                                VList []; VDict []]))) ∅)
  = Some (Instance integer_field).
Proof. reflexivity. Qed.

(** C3, as the spec has it, fails: an element with none of the three
    methods is accepted. *)
Lemma init_accepts_bare_element :
  provides_minimum (Instance bare) = false
  ∧ @__init__ (host false) (OfObject (Instance bare)) ∅ = Ok (array_of bare).
Proof. split; reflexivity. Qed.

Lemma init_stores_any_object_witness :
  @__init__ (host false) (OfObject (Instance bare)) ∅ = Ok (array_of bare)
  ∧ db_type (array_of bare) pg = Raise (AttributeError "db_type").
Proof.
  destruct (init_stores_any_object (H := host false) (Instance bare) ∅ eq_refl)
    as [Hinit Hdb].
  split; [exact Hinit|exact (Hdb _ pg eq_refl)].
Defined.

(** C4, as the spec has it, fails: an exact lookup on an integer array with
    an item that is no integer raises, and what it raises is the element's
    [ValueError]. *)
Lemma exact_lookup_can_raise :
  get_prep_lookup ints "exact" (VList [VStr "abc"])
  = Raise (ValueError "invalid literal for int() with base 10").
Proof. reflexivity. Qed.

Lemma get_prep_lookup_outcomes_witness :
  get_prep_lookup ints "len" (VStr "4") = Ok (VInt 4)
  ∧ raises_TypeError (get_prep_lookup ints "len" (VStr "abc")) = true
  ∧ get_prep_lookup ints "startswith" (VStr "a")
    = Raise (TypeError "Unsupported lookup type: startswith")
  ∧ get_prep_lookup ints "contains" (VInt 5) = Ok (VInt 5).
Proof.
  refine (conj _ (conj _ (conj _ _))).
  - exact (proj1 (get_prep_lookup_outcomes ints "len" (VStr "4"))
             eq_refl 4 eq_refl).
  - exact (proj1 (proj2 (get_prep_lookup_outcomes ints "len" (VStr "abc")))
             eq_refl eq_refl).
  - apply (proj1 (proj2 (proj2
             (get_prep_lookup_outcomes ints "startswith" (VStr "a"))))).
    rewrite !not_elem_of_cons. repeat split; (discriminate || apply not_elem_of_nil).
  - rewrite (proj2 (proj2 (proj2
               (get_prep_lookup_outcomes ints "contains" (VInt 5))))).
    + reflexivity.
    + rewrite !elem_of_cons. auto.
Defined.

Lemma contains_expression_witness :
  get_db_lookup_expression ints "contains" (VList [VInt 1; VInt 2; VInt 3]) pg
  = Ok (VStr "{field} @> {value}::integer[]")
  ∧ get_db_lookup_expression ints "contains" (VInt 5) pg
    = Ok (VStr "{value} = ANY({field})").
Proof.
  split.
  - exact (proj1 (contains_expression ints pg (VList [VInt 1; VInt 2; VInt 3]))
             eq_refl "integer[]" eq_refl).
  - exact (proj2 (contains_expression ints pg (VInt 5)) eq_refl).
Defined.

Lemma db_type_integer :
  db_type ints pg = Ok "integer[]".
Proof.
  exact (db_type_appends_brackets ints pg (λ _, Ok "integer") "integer"
           eq_refl eq_refl).
Defined.

Lemma get_prep_value_falsy_witness :
  get_prep_value ints VNone = Ok (VList [])
  ∧ get_prep_value ints VNone ≠ Ok VNone.
Proof. exact (get_prep_value_falsy_empty ints VNone eq_refl). Defined.

Lemma create_type_sql_witness :
  create_type_sql ints pg no_style false = Ok (VStr EmptyString)
  ∧ create_type_sql (array_of mood_field) pg no_style true
    = Ok (VStr (mood_ddl true)).
Proof.
  split.
  - exact (proj1 (create_type_sql_delegates ints pg no_style false) eq_refl).
  - exact (proj2 (create_type_sql_delegates (array_of mood_field) pg no_style true)
             _ eq_refl).
Defined.

Lemma init_forces_null_witness :
  ∃ self, @__init__ (host false) (OfObject (Instance integer_field))
            {["null" := VBool false]} = Ok self
          ∧ null self = true.
Proof.
  set (kwargs := {["null" := VBool false]} : gmap string pyvalue).
  exists (@Build_ArrayField (host false) (Instance integer_field)
            (<["null" := VBool true]> kwargs)).
  assert (Hinit : @__init__ (host false) (OfObject (Instance integer_field))
                    kwargs = Ok (@Build_ArrayField (host false)
                      (Instance integer_field) (<["null" := VBool true]> kwargs)))
    by reflexivity.
  split; [exact Hinit|exact (proj2 (init_forces_null _ _ _ Hinit))].
Defined.

Lemma init_default_element_witness :
  ∃ self, @__init__ (host false) (@of_default (host false)) ∅ = Ok self
          ∧ _of self = Instance integer_field
          ∧ db_type self pg = Ok "integer[]".
Proof.
  exists ints.
  assert (Hinit : @__init__ (host false) (@of_default (host false)) ∅ = Ok ints) by reflexivity.
  destruct (init_default_element ∅ ints pg Hinit) as (f & Hc & Hof & Hdb).
  injection Hc as <-.
  exact (conj Hinit (conj Hof (Hdb _ "integer" eq_refl eq_refl))).
Defined.

End examples.

(** * Further properties *)

(** ** [mapM] in the error monad: what it returns and where it stops *)

Section mapM_outcomes.
Context {A B : Type} (f : A → result B).

Lemma mapM_Ok (l : list A) (k : list B) :
  mapM f l = Ok k ↔ Forall2 (λ x y, f x = Ok y) l k.
Proof.
  revert k. induction l as [|x l IH]; intros k.
  - simpl. split.
    + intros [= <-]. constructor.
    + intros Hk. by inversion Hk.
  - rewrite mapM_cons. split.
    + intros (y & Hy & Hrest)%bind_Ok_inv.
      apply bind_Ok_inv in Hrest as (k' & Hk' & [= <-]).
      constructor; [done|]. by apply IH.
    + intros Hk. inversion Hk as [|? y ? k' Hy Hk']; subst.
      apply IH in Hk'. rewrite Hy. simpl. by rewrite Hk'.
Qed.

Lemma mapM_Raise (l : list A) (e : exn) :
  mapM f l = Raise e
  ↔ ∃ (l1 : list A) x l2 k1, l = (l1 ++ x :: l2)%list
                  ∧ Forall2 (λ x y, f x = Ok y) l1 k1
                  ∧ f x = Raise e.
Proof.
  induction l as [|x l IH].
  - simpl. split; [discriminate|].
    intros (l1 & y & l2 & k1 & Hl & _). by destruct l1.
  - rewrite mapM_cons. split.
    + destruct (f x) as [y|e'] eqn:Hx; simpl.
      * destruct (mapM f l) as [k|e'] eqn:Hl; simpl; [discriminate|].
        intros [= ->].
        destruct (proj1 IH eq_refl) as (l1 & z & l2 & k1 & -> & Hk1 & Hz).
        exists (x :: l1), z, l2, (y :: k1). repeat split; [|done].
        by constructor.
      * intros [= ->]. exists [], x, l, []. repeat split; [constructor|done].
    + intros (l1 & z & l2 & k1 & Hl & Hk1 & Hz).
      destruct l1 as [|x' l1]; simpl in Hl; injection Hl as -> ->.
      * by rewrite Hz.
      * inversion Hk1 as [|? y ? k1' Hy Hk1']; subst.
        rewrite Hy. simpl.
        assert (mapM f (l1 ++ z :: l2)%list = Raise e) as ->; [|done].
        apply IH. eauto 10.
Qed.

End mapM_outcomes.

Lemma fmap_VList_Ok (m : result (list pyvalue)) (k : list pyvalue) :
  VList <$> m = Ok (VList k) ↔ m = Ok k.
Proof. destruct m; simpl; split; congruence. Qed.

Lemma fmap_Raise {A B} (g : A → B) (m : result A) (e : exn) :
  g <$> m = Raise e ↔ m = Raise e.
Proof. destruct m; simpl; split; congruence. Qed.

(** For an iterable, being empty and being falsy are the same. *)
Lemma py_list_truthy (v : pyvalue) (l : list pyvalue) :
  py_list v = Ok l → truthy v = negb (Nat.eqb (List.length l) 0).
Proof.
  destruct v as [| | |s|k|k|d]; simpl; try discriminate; intros [= <-]; try done.
  - by destruct s.
  - by destruct d.
Qed.

(** ** [get_prep_value] and [to_python], item by item *)

Section conversion_items.
Context `{Host}.
Implicit Types (self : ArrayField) (v r : pyvalue) (l k : list pyvalue).

(** Over any iterable, empty or not, [get_prep_value] is [mapM] of the
    element's [get_prep_value] over the items. *)
Lemma get_prep_value_iterable self v l :
  py_list v = Ok l →
  get_prep_value self v = VList <$> mapM (call_get_prep_value (_of self)) l.
Proof.
  intros Hl. destruct (truthy v) eqn:Ht.
  - by apply get_prep_value_items.
  - rewrite get_prep_value_falsy by done.
    rewrite (py_list_truthy _ _ Hl) in Ht. by destruct l.
Qed.

(** X1: on an iterable (list, tuple, text, dictionary) [get_prep_value]
    returns the list [k] exactly when [k] holds, position by position, what
    the element's [get_prep_value] returns for the items: same length, same
    order, nothing merged or dropped. *)
Theorem get_prep_value_each_item self v l k :
  py_list v = Ok l →
  get_prep_value self v = Ok (VList k)
  ↔ Forall2 (λ x y, call_get_prep_value (_of self) x = Ok y) l k.
Proof.
  intros Hl. rewrite (get_prep_value_iterable _ _ l Hl).
  by rewrite fmap_VList_Ok, mapM_Ok.
Qed.

(** X2: [get_prep_value] on an iterable raises exactly when the element's
    [get_prep_value] raises on some item after returning on all the items
    before it, and the exception is that item's. *)
Theorem get_prep_value_first_failure self v l e :
  py_list v = Ok l →
  get_prep_value self v = Raise e
  ↔ ∃ l1 x l2 k1, l = (l1 ++ x :: l2)%list
      ∧ Forall2 (λ x y, call_get_prep_value (_of self) x = Ok y) l1 k1
      ∧ call_get_prep_value (_of self) x = Raise e.
Proof.
  intros Hl. rewrite (get_prep_value_iterable _ _ l Hl).
  by rewrite fmap_Raise, mapM_Raise.
Qed.

(** X3: a truthy value that cannot be iterated (a number other than zero,
    [True]) makes [get_prep_value] raise a [TypeError], whatever the
    element. *)
Theorem get_prep_value_not_iterable self v :
  returned (py_list v) = None → truthy v = true →
  raises_TypeError (get_prep_value self v) = true.
Proof.
  intros Hl Ht. unfold get_prep_value. rewrite Ht. simpl.
  destruct v; simpl in *; done.
Qed.

Lemma to_python_list_Ok self l r :
  to_python self (VList l) = Ok r
  ↔ ∃ k, r = VList k
         ∧ Forall2 (λ x y, call_to_python (_of self) x = Ok y) l k.
Proof.
  rewrite to_python_list. split.
  - intros (k & Hk & ->)%fmap_Ok_inv. exists k. split; [done|].
    by apply mapM_Ok.
  - intros (k & -> & Hk). apply mapM_Ok in Hk. by rewrite Hk.
Qed.

(** X5: [to_python] on a list returns [r] exactly when [r] is the list that
    holds, position by position, what the element's [to_python] returns for
    the items. *)
Theorem to_python_each_item self l r :
  to_python self (VList l) = Ok r
  ↔ ∃ k, r = VList k
         ∧ Forall2 (λ x y, call_to_python (_of self) x = Ok y) l k.
Proof. apply to_python_list_Ok. Qed.

(** X6: [to_python] raises only through the element: on a list, when the
    element's [to_python] raises on some item after returning on the items
    before it, with that exception; on anything else, never. *)
Theorem to_python_first_failure self v e :
  to_python self v = Raise e
  ↔ ∃ l1 x l2 k1, v = VList (l1 ++ x :: l2)
      ∧ Forall2 (λ x y, call_to_python (_of self) x = Ok y) l1 k1
      ∧ call_to_python (_of self) x = Raise e.
Proof.
  split.
  - destruct v as [| | | |l| |]; try discriminate.
    rewrite to_python_list, fmap_Raise, mapM_Raise.
    intros (l1 & x & l2 & k1 & -> & Hk & Hx). eauto 10.
  - intros (l1 & x & l2 & k1 & -> & Hk & Hx).
    rewrite to_python_list, fmap_Raise, mapM_Raise. eauto 10.
Qed.

(** X7: when the element's [to_python] leaves its own results alone,
    so does the array's: converting a converted value changes nothing. *)
Theorem to_python_idempotent self v r :
  (∀ x y, call_to_python (_of self) x = Ok y →
          call_to_python (_of self) y = Ok y) →
  to_python self v = Ok r → to_python self r = Ok r.
Proof.
  intros Hidem Hr.
  destruct (is_list v) eqn:Hv.
  - destruct v as [| | | |l| |]; try discriminate.
    apply to_python_list_Ok in Hr as (k & -> & Hk).
    apply to_python_list_Ok. exists k. split; [done|].
    induction Hk as [|x y l k Hxy _ IH]; constructor; eauto.
  - rewrite to_python_not_list in Hr by done. by injection Hr as <-.
Qed.

(** X8: with an element that has neither conversion method, empty input
    still converts (the element is not consulted), and a list with at least
    one item raises [AttributeError] naming the missing method. *)
Theorem conversions_without_methods self x l :
  attr field_get_prep_value (_of self) = None →
  attr field_to_python (_of self) = None →
  get_prep_value self (VList []) = Ok (VList [])
  ∧ to_python self (VList []) = Ok (VList [])
  ∧ get_prep_value self (VList (x :: l))
    = Raise (AttributeError "get_prep_value")
  ∧ to_python self (VList (x :: l)) = Raise (AttributeError "to_python").
Proof.
  intros Hp Ht. repeat split.
  - rewrite (get_prep_value_iterable _ _ (x :: l)) by done.
    assert (call_get_prep_value (_of self) x
            = Raise (AttributeError "get_prep_value")) as Hx
      by (unfold call_get_prep_value, getattr; by rewrite Hp).
    by rewrite mapM_cons, Hx.
  - assert (call_to_python (_of self) x = Raise (AttributeError "to_python"))
      as Hx by (unfold call_to_python, getattr; by rewrite Ht).
    by rewrite to_python_list, mapM_cons, Hx.
Qed.

(** X22: when, on every item, the element's [to_python] undoes its
    [get_prep_value], the array's does too: a list comes back as it was, and
    a tuple comes back as the list of its items. *)
Theorem roundtrip_identity self l :
  Forall (λ x, ∃ p, call_get_prep_value (_of self) x = Ok p
                    ∧ call_to_python (_of self) p = Ok x) l →
  roundtrip self (VList l) = Ok (VList l)
  ∧ roundtrip self (VTuple l) = Ok (VList l).
Proof.
  intros Hl.
  assert (∃ k, mapM (call_get_prep_value (_of self)) l = Ok k
               ∧ mapM (call_to_python (_of self)) k = Ok l) as (k & Hk & Hb).
  { setoid_rewrite mapM_Ok.
    induction Hl as [|x l (p & Hp & Hx) _ (k & Hk & Hb)].
    - exists []. split; constructor.
    - exists (p :: k). split; by constructor. }
  unfold roundtrip.
  rewrite (get_prep_value_iterable self (VList l) l),
    (get_prep_value_iterable self (VTuple l) l) by done.
  rewrite Hk.
  change (to_python self (VList k) = Ok (VList l)
          ∧ to_python self (VList k) = Ok (VList l)).
  by rewrite to_python_list, Hb.
Qed.

End conversion_items.

(** ** SQL types and lookup expressions, in full *)

Section sql_outcomes.
Context `{Host}.
Implicit Types (self : ArrayField) (v : pyvalue) (connection : connection).

Lemma db_type_Ok self connection t :
  db_type self connection = Ok t
  ↔ ∃ f s, attr field_db_type (_of self) = Some f
           ∧ f connection = Ok s ∧ t = s +:+ "[]".
Proof.
  unfold db_type, getattr.
  destruct (attr field_db_type (_of self)) as [f|]; simpl.
  - destruct (f connection) as [s|e] eqn:Hs; simpl; split.
    + intros [= <-]. eauto.
    + intros (g & s' & [= <-] & Hs' & ->). rewrite Hs in Hs'.
      by injection Hs' as ->.
    + discriminate.
    + intros (g & s' & [= <-] & Hs' & ->). rewrite Hs in Hs'. discriminate.
  - split; [discriminate|]. by intros (g & s' & [=] & _).
Qed.

Lemma db_type_Raise self connection e :
  db_type self connection = Raise e
  ↔ (attr field_db_type (_of self) = None ∧ e = AttributeError "db_type")
    ∨ (∃ f, attr field_db_type (_of self) = Some f ∧ f connection = Raise e).
Proof.
  unfold db_type, getattr.
  destruct (attr field_db_type (_of self)) as [f|]; simpl.
  - destruct (f connection) as [s|e'] eqn:Hs; simpl; split.
    + discriminate.
    + intros [[[=] _]|(g & [= <-] & Hg)]. rewrite Hs in Hg. discriminate.
    + intros [= <-]. eauto.
    + intros [[[=] _]|(g & [= <-] & Hg)]. rewrite Hs in Hg.
      by injection Hg as ->.
  - split.
    + intros [= <-]. by left.
    + intros [[_ ->]|(g & [=] & _)]. done.
Qed.

(** X9: [db_type] makes up nothing: every type it returns is a type the
    element returned with the array suffix behind it, and it raises exactly
    when the element has no [db_type] (an [AttributeError]) or the element's
    [db_type] raises (that exception). *)
Theorem db_type_outcomes self connection :
  (∀ t, db_type self connection = Ok t
        ↔ ∃ f s, attr field_db_type (_of self) = Some f
                 ∧ f connection = Ok s ∧ t = s +:+ "[]")
  ∧ (∀ e, db_type self connection = Raise e
          ↔ (attr field_db_type (_of self) = None
             ∧ e = AttributeError "db_type")
            ∨ (∃ f, attr field_db_type (_of self) = Some f
                    ∧ f connection = Raise e)).
Proof. split; intros; [apply db_type_Ok|apply db_type_Raise]. Qed.

(** The kinds with an expression, one case each. *)
Lemma expression_cases self kind v connection :
  (kind = "exact"
   ∧ get_db_lookup_expression self kind v connection
     = (t ← db_type self connection; mret (VStr ("{field} = {value}::" +:+ t))))
  ∨ (kind = "contains" ∧ is_list_or_tuple v = true
     ∧ get_db_lookup_expression self kind v connection
       = (t ← db_type self connection;
          mret (VStr ("{field} @> {value}::" +:+ t))))
  ∨ (kind = "contains" ∧ is_list_or_tuple v = false
     ∧ get_db_lookup_expression self kind v connection
       = Ok (VStr "{value} = ANY({field})"))
  ∨ (kind = "len"
     ∧ get_db_lookup_expression self kind v connection
       = Ok (VStr "{value} = ARRAY_LENGTH({field}, 1)"))
  ∨ ((kind ∉ ["exact"; "contains"; "len"])
     ∧ get_db_lookup_expression self kind v connection = Ok VNone).
Proof.
  unfold get_db_lookup_expression.
  destruct (decide (kind = "exact")) as [->|He]; [by left|].
  destruct (decide (kind = "contains")) as [->|Hc].
  { destruct (is_list_or_tuple v); [right; left|right; right; left]; done. }
  destruct (decide (kind = "len")) as [->|Hl].
  { do 3 right. by left. }
  do 4 right. split; [|done].
  rewrite !not_elem_of_cons. repeat split; auto using not_elem_of_nil.
Qed.

(** X10: [get_db_lookup_expression] raises exactly when it needs the array's
    SQL type (the exact lookup, and contains with a list or tuple operand)
    and [db_type] raises, with that exception; the len lookup and contains
    with a scalar never raise, even for an element without [db_type]. *)
Theorem expression_raises_iff self kind v connection e :
  get_db_lookup_expression self kind v connection = Raise e
  ↔ (kind = "exact" ∨ (kind = "contains" ∧ is_list_or_tuple v = true))
    ∧ db_type self connection = Raise e.
Proof.
  destruct (expression_cases self kind v connection)
    as [[-> ->]|[(-> & Hv & ->)|[(-> & Hv & ->)|[[-> ->]|[Hk ->]]]]].
  - destruct (db_type self connection); simpl; split;
      [discriminate|by intros [_ [=]]|intros [= ->]; auto|by intros [_ [= ->]]].
  - destruct (db_type self connection); simpl; split;
      [discriminate|by intros [_ [=]]|intros [= ->]; auto|by intros [_ [= ->]]].
  - split; [discriminate|]. intros [[[=]|[_ Hv']] _]. congruence.
  - split; [discriminate|]. by intros [[[=]|[[=] _]] _].
  - split; [discriminate|]. rewrite !not_elem_of_cons in Hk.
    intros [[->|[-> _]] _]; tauto.
Qed.

(** X11: every template [get_db_lookup_expression] returns holds both
    placeholders, the field's and the value's. *)
Theorem expression_has_placeholders self kind v connection s :
  get_db_lookup_expression self kind v connection = Ok (VStr s) →
  occurs_in "{field}" s ∧ occurs_in "{value}" s.
Proof.
  destruct (expression_cases self kind v connection)
    as [[-> ->]|[(-> & Hv & ->)|[(-> & Hv & ->)|[[-> ->]|[Hk ->]]]]].
  - intros (t & _ & [= <-])%bind_Ok_inv. split.
    + by exists EmptyString, (" = {value}::" +:+ t).
    + by exists "{field} = ", ("::" +:+ t).
  - intros (t & _ & [= <-])%bind_Ok_inv. split.
    + by exists EmptyString, (" @> {value}::" +:+ t).
    + by exists "{field} @> ", ("::" +:+ t).
  - intros [= <-]. split.
    + by exists "{value} = ANY(", ")".
    + by exists EmptyString, " = ANY({field})".
  - intros [= <-]. split.
    + by exists "{value} = ARRAY_LENGTH(", ", 1)".
    + by exists EmptyString, " = ARRAY_LENGTH({field}, 1)".
  - discriminate.
Qed.

(** X12: a kind has no expression ([None] is returned) exactly when it is
    none of exact, contains and len, and for such a kind [get_prep_lookup]
    has rejected the operand already, whatever the operand. *)
Theorem no_expression_iff_unsupported self kind v v' connection :
  (get_db_lookup_expression self kind v connection = Ok VNone
   ↔ kind ∉ ["exact"; "contains"; "len"])
  ∧ (get_db_lookup_expression self kind v connection = Ok VNone →
     get_prep_lookup self kind v'
     = Raise (TypeError ("Unsupported lookup type: " +:+ kind))).
Proof.
  assert (get_db_lookup_expression self kind v connection = Ok VNone
          ↔ kind ∉ ["exact"; "contains"; "len"]) as Hiff.
  { destruct (expression_cases self kind v connection)
      as [[-> ->]|[(-> & Hv & ->)|[(-> & Hv & ->)|[[-> ->]|[Hk ->]]]]].
    - rewrite !not_elem_of_cons. split; [|tauto].
      by intros (t & _ & [=])%bind_Ok_inv.
    - rewrite !not_elem_of_cons. split; [|tauto].
      by intros (t & _ & [=])%bind_Ok_inv.
    - rewrite !not_elem_of_cons. split; [discriminate|tauto].
    - rewrite !not_elem_of_cons. split; [discriminate|tauto].
    - done. }
  split; [done|]. intros Hk%Hiff.
  rewrite !not_elem_of_cons in Hk. destruct Hk as (He & Hc & Hl & _).
  unfold get_prep_lookup.
  destruct (decide (kind = "len")); [done|].
  destruct (decide (kind ∉ ["exact"; "contains"])) as [_|Hin]; [done|].
  exfalso. apply Hin. rewrite !not_elem_of_cons.
  repeat split; auto using not_elem_of_nil.
Qed.

End sql_outcomes.

(** ** Lookups: the operand on its way to the query *)

Section lookup_operand.
Context `{Host}.
Implicit Types (self : ArrayField) (v : pyvalue) (l k : list pyvalue).

Lemma get_prep_lookup_delegates self kind v :
  kind ∈ ["exact"; "contains"] →
  get_prep_lookup self kind v
  = coerce_lookup_items self v
    ≫= Field_get_prep_lookup (get_prep_value self) kind.
Proof.
  intros Hk. unfold get_prep_lookup.
  rewrite !elem_of_cons, elem_of_nil in Hk.
  destruct (decide (kind = "len")) as [->|_].
  { by destruct Hk as [[=]|[[=]|[]]]. }
  destruct (decide (kind ∉ ["exact"; "contains"])) as [Hn|_]; [|done].
  exfalso. rewrite !not_elem_of_cons in Hn. tauto.
Qed.

(** X13: in an exact or contains lookup over a list or tuple, the first
    item the element's [get_prep_lookup] refuses settles the call: its
    exception is raised and the superclass is not reached. *)
Theorem lookup_item_failure self kind v l1 x l2 k1 e :
  kind ∈ ["exact"; "contains"] →
  v = VList (l1 ++ x :: l2) ∨ v = VTuple (l1 ++ x :: l2) →
  Forall2 (λ i y, call_get_prep_lookup (_of self) "exact" i = Ok y) l1 k1 →
  call_get_prep_lookup (_of self) "exact" x = Raise e →
  get_prep_lookup self kind v = Raise e.
Proof.
  intros Hk Hv Hl1 Hx. rewrite get_prep_lookup_delegates by done.
  assert (mapM (λ i, call_get_prep_lookup (_of self) "exact" i)
            (l1 ++ x :: l2) = Raise e) as Hm.
  { apply mapM_Raise. eauto 10. }
  destruct Hv as [->| ->]; simpl; by rewrite Hm.
Qed.

Variable Field_get_db_prep_lookup :
  ArrayField → string → pyvalue → connection → bool → result pyvalue.

(** X14: a contains lookup, prepared and then bound, gives one query
    parameter: the operand after [coerce_lookup_items], and so a scalar
    operand exactly as it came, with no pattern characters around it.  This
    holds when the superclass's [get_prep_lookup] hands a contains operand
    through, as Django's does, and whatever its [get_db_prep_lookup] would
    have done. *)
Theorem contains_binds_one_parameter self v connection prepared :
  (∀ g x, Field_get_prep_lookup g "contains" x = Ok x) →
  (p ← get_prep_lookup self "contains" v;
   get_db_prep_lookup Field_get_db_prep_lookup self "contains" p
     connection prepared)
  = (λ p, VList [p]) <$> coerce_lookup_items self v
  ∧ (is_list_or_tuple v = false →
     (p ← get_prep_lookup self "contains" v;
      get_db_prep_lookup Field_get_db_prep_lookup self "contains" p
        connection prepared)
     = Ok (VList [v])).
Proof.
  intros Hbase.
  assert (∀ p, get_db_prep_lookup Field_get_db_prep_lookup self "contains" p
                 connection prepared = Ok (VList [p])) as Hbind by done.
  rewrite get_prep_lookup_delegates
    by (rewrite !elem_of_cons; auto).
  split.
  - destruct (coerce_lookup_items self v) as [p|e]; simpl; [|done].
    by rewrite Hbase.
  - intros Hv. destruct v; try discriminate; simpl; by rewrite Hbase.
Qed.

End lookup_operand.

(** ** Arrays of arrays *)

Lemma append_suffix_twice (s : string) : (s +:+ "[]") +:+ "[]" = s +:+ "[][]".
Proof.
  induction s as [|c s IH]; [done|].
  change (String c ((s +:+ "[]") +:+ "[]") = String c (s +:+ "[][]")).
  by rewrite IH.
Qed.

Section nested.
Context `{Host}.
Implicit Types (inner outer : ArrayField) (l : list pyvalue).

(** X15: an array field whose element is an array field has the element's
    SQL type with the suffix twice, and its DDL is the inner field's. *)
Theorem nested_db_type_and_ddl inner outer connection st only_if_not_exists f s :
  _of outer = Instance (as_field inner) →
  attr field_db_type (_of inner) = Some f →
  f connection = Ok s →
  db_type outer connection = Ok (s +:+ "[][]")
  ∧ create_type_sql outer connection st only_if_not_exists
    = create_type_sql inner connection st only_if_not_exists.
Proof.
  intros Ho Hf Hs. split.
  - apply db_type_Ok. exists (db_type inner), (s +:+ "[]").
    rewrite Ho. split; [done|].
    split; [apply db_type_Ok; eauto|].
    by rewrite append_suffix_twice.
  - unfold create_type_sql at 1. by rewrite Ho.
Qed.


End nested.

(** ** Construction, and South's triples *)

Section construction_more.
Context `{Host}.
Variable introspector : object → result (pyvalue * pyvalue).
Variable class_names : field → string * string.
Implicit Types (self : ArrayField) (kwargs : gmap string pyvalue)
  (t : list pyvalue).

(** X17: the [null] keyword of the caller has no effect at all: passing it
    with any value, or removing it, gives the same field or the same
    exception. *)
Theorem init_ignores_null_keyword (of_ : of_arg) kwargs x :
  __init__ of_ (<["null" := x]> kwargs) = __init__ of_ kwargs
  ∧ __init__ of_ (delete "null" kwargs) = __init__ of_ kwargs.
Proof.
  unfold __init__. by rewrite insert_insert_eq, insert_delete_eq.
Qed.

(** X18: a class given as [of] is called with no arguments, and from there
    on construction goes as if the instance had been given; when the call
    raises, so does the constructor, with that exception. *)
Theorem init_class_or_instance (c : field_class) kwargs :
  (∀ f, construct c (VTuple []) (VDict []) = Ok f →
        __init__ (OfType c) kwargs = __init__ (OfObject (Instance f)) kwargs)
  ∧ (∀ e, construct c (VTuple []) (VDict []) = Raise e →
          __init__ (OfType c) kwargs = Raise e).
Proof.
  unfold __init__. split; [intros f Hc|intros e Hc]; simpl; by rewrite Hc.
Qed.

Lemma init_triple name args kw rest (c : field_class) f kwargs :
  south_installed = true →
  ask_for_it_by_name name = Ok c →
  construct c args kw = Ok f →
  __init__ (OfObject (Plain (VTuple (name :: args :: kw :: rest)))) kwargs
  = __init__ (OfObject (Instance f)) kwargs.
Proof.
  intros Hs Hc Hf. unfold __init__, resurrect. rewrite Hs. simpl.
  rewrite Hc. simpl. by rewrite Hf.
Qed.

(** X19: with South installed, a tuple given as [of] is read as a triple:
    the class South finds under the first item is called with the second
    and third items, and construction goes on with the instance it builds;
    items after the third are ignored. *)
Theorem init_resurrects_triple name args kw rest (c : field_class) f kwargs :
  south_installed = true →
  ask_for_it_by_name name = Ok c →
  construct c args kw = Ok f →
  __init__ (OfObject (Plain (VTuple (name :: args :: kw :: rest)))) kwargs
  = __init__ (OfObject (Instance f)) kwargs.
Proof. apply init_triple. Qed.

(** X20: with South installed, a tuple of fewer than three items never
    makes a field: the constructor raises. *)
Theorem init_short_triple_raises t kwargs :
  south_installed = true →
  (List.length t < 3)%nat →
  returned (__init__ (OfObject (Plain (VTuple t))) kwargs) = None.
Proof.
  intros Hs Ht. unfold __init__, resurrect. rewrite Hs.
  destruct t as [|name [|args [|kw rest]]]; simpl in *; try lia; try done;
    by destruct (ask_for_it_by_name name).
Qed.

(** X21: what [south_field_triple] writes, the constructor reads back.  When
    South finds the element's class under its dotted name and that class
    rebuilds the element from the arguments the introspector reports, the
    triple is the field's class path, no positional arguments and the one
    keyword [of], and constructing from that [of] gives the same element
    again. *)
Theorem south_triple_roundtrip cls self f args kw (c : field_class) kwargs :
  south_installed = true →
  _of self = Instance f →
  introspector (Instance f) = Ok (args, kw) →
  ask_for_it_by_name (VStr (dotted (class_names f))) = Ok c →
  construct c args kw = Ok f →
  ∃ t, south_field_triple introspector class_names cls self
       = Ok (VTuple [VStr (dotted cls); VList [];
                     VDict [(VStr "of", VTuple t)]])
       ∧ __init__ (OfObject (Plain (VTuple t))) kwargs
         = (b ← Field__init__ (<["null" := VBool true]> kwargs);
            mret {| _of := _of self; super_state := b |}).
Proof.
  intros Hs Ho Hi Hc Hf.
  exists [VStr (dotted (class_names f)); args; kw]. split.
  - unfold south_field_triple. rewrite Ho, Hi. reflexivity.
  - rewrite (init_triple _ _ _ _ c f) by done. by rewrite Ho.
Qed.

(** X23: the constructor raises nothing of its own.  When it raises, the
    exception comes from bringing a South triple back to life, from calling
    the class given as [of], or from the superclass initialiser. *)
Theorem init_raises_only_through (of_ : of_arg) kwargs e :
  __init__ of_ kwargs = Raise e →
  (∃ t, of_ = OfObject (Plain (VTuple t)) ∧ south_installed = true
        ∧ resurrect t = Raise e)
  ∨ (∃ c, of_ = OfType c ∧ construct c (VTuple []) (VDict []) = Raise e)
  ∨ Field__init__ (<["null" := VBool true]> kwargs) = Raise e.
Proof.
  assert (∀ o, Field__init__ (<["null" := VBool true]> kwargs)
               ≫= (λ b, mret {| _of := o; super_state := b |}) = Raise e →
               Field__init__ (<["null" := VBool true]> kwargs) = Raise e) as Hb.
  { intros o. destruct (Field__init__ _); [discriminate|]. by intros [= ->]. }
  unfold __init__.
  destruct of_ as [c|o].
  - simpl. destruct (construct c _ _) as [f|e'] eqn:Hc; simpl.
    + intros Hi%Hb. auto.
    + intros [= ->]. right. left. eauto.
  - destruct o as [f|v]; [intros Hi%Hb; by auto|].
    destruct v as [| | | | |t|]; try (intros Hi%Hb; by auto).
    destruct south_installed eqn:Hs; [|intros Hi%Hb; by auto].
    destruct (resurrect t) as [f|e'] eqn:Hr; simpl.
    + intros Hi%Hb. auto.
    + intros [= ->]. left. eauto.
Qed.

End construction_more.

(** ** The further properties on the reference host *)

Lemma integer_to_python_settles (x y : pyvalue) :
  call_to_python (Instance reference.integer_field) x = Ok y →
  call_to_python (Instance reference.integer_field) y = Ok y.
Proof.
  unfold call_to_python, getattr. simpl. unfold reference.integer_to_python.
  destruct x; try (by intros [= <-]); try discriminate.
  destruct (py_int (VStr s)); [by intros [= <-]|discriminate].
Qed.

Section more_examples.
Import reference.

Lemma get_prep_value_each_item_witness :
  Forall2 (λ x y, call_get_prep_value (Instance integer_field) x = Ok y)
    [VStr "3"; VInt 1; VInt 1] [VInt 3; VInt 1; VInt 1].
Proof.
  exact (proj1 (get_prep_value_each_item ints
                  (VTuple [VStr "3"; VInt 1; VInt 1]) _
                  [VInt 3; VInt 1; VInt 1] eq_refl) eq_refl).
Defined.

Lemma get_prep_value_first_failure_witness :
  get_prep_value ints (VList [VInt 1; VStr "x"; VList []])
  = Raise (ValueError "invalid literal for int() with base 10").
Proof.
  apply (get_prep_value_first_failure ints
           (VList [VInt 1; VStr "x"; VList []]) [VInt 1; VStr "x"; VList []]
           _ eq_refl).
  exists [VInt 1], (VStr "x"), [VList []], [VInt 1].
  split; [reflexivity|]. split; [|reflexivity].
  constructor; [reflexivity|constructor].
Defined.

Lemma get_prep_value_not_iterable_witness :
  raises_TypeError (get_prep_value ints (VInt 5)) = true.
Proof. exact (get_prep_value_not_iterable ints (VInt 5) eq_refl eq_refl). Defined.

Lemma get_prep_value_returns_list_witness :
  is_list (VList [VInt 1; VInt 2]) = true.
Proof.
  exact (get_prep_value_returns_list ints (VTuple [VInt 1; VStr "2"])
           (VList [VInt 1; VInt 2]) eq_refl).
Defined.

Lemma to_python_idempotent_witness :
  to_python ints (VList [VInt 3; VInt 1]) = Ok (VList [VInt 3; VInt 1]).
Proof.
  exact (to_python_idempotent ints (VList [VStr "3"; VInt 1])
           (VList [VInt 3; VInt 1]) integer_to_python_settles eq_refl).
Defined.

Lemma conversions_without_methods_witness :
  get_prep_value (array_of bare) (VList []) = Ok (VList [])
  ∧ to_python (array_of bare) (VList []) = Ok (VList [])
  ∧ get_prep_value (array_of bare) (VList [VInt 1])
    = Raise (AttributeError "get_prep_value")
  ∧ to_python (array_of bare) (VList [VInt 1])
    = Raise (AttributeError "to_python").
Proof.
  exact (conversions_without_methods (array_of bare) (VInt 1) [] eq_refl eq_refl).
Defined.

Lemma expression_has_placeholders_witness :
  occurs_in "{field}" "{field} = {value}::integer[]"
  ∧ occurs_in "{value}" "{field} = {value}::integer[]".
Proof.
  exact (expression_has_placeholders ints "exact" VNone pg _ eq_refl).
Defined.

Lemma no_expression_iff_unsupported_witness :
  get_prep_lookup ints "startswith" (VStr "a")
  = Raise (TypeError "Unsupported lookup type: startswith").
Proof.
  exact (proj2 (no_expression_iff_unsupported ints "startswith" VNone
                  (VStr "a") pg) eq_refl).
Defined.

Lemma lookup_item_failure_witness :
  get_prep_lookup ints "contains" (VTuple [VInt 1; VStr "abc"])
  = Raise (ValueError "invalid literal for int() with base 10").
Proof.
  apply (lookup_item_failure ints "contains" _ [VInt 1] (VStr "abc") []
           [VInt 1]).
  - rewrite !elem_of_cons. auto.
  - by right.
  - constructor; [reflexivity|constructor].
  - reflexivity.
Defined.

Lemma contains_binds_one_parameter_witness :
  (p ← get_prep_lookup ints "contains" (VStr "a%");
   get_db_prep_lookup (λ _ _ _ _ _, Raise (OtherError "NotImplementedError" "unused"))
     ints "contains" p pg false)
  = Ok (VList [VStr "a%"]).
Proof.
  exact (proj2 (contains_binds_one_parameter
                  (λ _ _ _ _ _, Raise (OtherError "NotImplementedError" "unused"))
                  ints (VStr "a%") pg false (λ _ _, eq_refl)) eq_refl).
Defined.

Lemma nested_db_type_and_ddl_witness :
  db_type fixtures.matrix pg = Ok "integer[][]"
  ∧ create_type_sql fixtures.matrix pg no_style false
    = create_type_sql ints pg no_style false.
Proof.
  exact (nested_db_type_and_ddl ints fixtures.matrix pg no_style false
           (λ _, Ok "integer") "integer" eq_refl eq_refl eq_refl).
Defined.


Lemma init_class_or_instance_witness :
  @__init__ (host false) (OfType Integer) ∅
  = @__init__ (host false) (OfObject (Instance integer_field)) ∅.
Proof.
  exact (proj1 (@init_class_or_instance (host false) Integer ∅)
           integer_field eq_refl).
Defined.

Lemma init_resurrects_triple_witness :
  @__init__ (host true)
    (OfObject (Plain (VTuple [VStr "django.db.models.fields.IntegerField";
                              VList []; VDict []]))) ∅
  = @__init__ (host true) (OfObject (Instance integer_field)) ∅.
Proof.
  exact (@init_resurrects_triple (host true)
           (VStr "django.db.models.fields.IntegerField") (VList []) (VDict [])
           [] Integer integer_field ∅ eq_refl eq_refl eq_refl).
Defined.

Lemma init_short_triple_raises_witness :
  returned (@__init__ (host true)
    (OfObject (Plain (VTuple [VStr "django.db.models.fields.IntegerField";
                              VList []]))) ∅) = None.
Proof.
  apply (@init_short_triple_raises (host true)); [reflexivity|simpl; lia].
Defined.

Lemma south_triple_roundtrip_witness :
  ∃ t, south_field_triple fixtures.introspector fixtures.class_names
         array_class fixtures.ints
       = Ok (VTuple [VStr "django_pg.models.fields.array.ArrayField"; VList [];
                     VDict [(VStr "of", VTuple t)]])
       ∧ @__init__ (host true) (OfObject (Plain (VTuple t))) ∅
         = Ok fixtures.ints.
Proof.
  exact (@south_triple_roundtrip (host true) fixtures.introspector
           fixtures.class_names array_class fixtures.ints integer_field
           (VList []) (VDict []) Integer ∅
           eq_refl eq_refl eq_refl eq_refl eq_refl).
Defined.

Lemma roundtrip_identity_witness :
  roundtrip ints (VList [VInt 3; VInt 1; VInt 1])
  = Ok (VList [VInt 3; VInt 1; VInt 1])
  ∧ roundtrip ints (VTuple [VInt 3; VInt 1; VInt 1])
    = Ok (VList [VInt 3; VInt 1; VInt 1]).
Proof.
  apply (roundtrip_identity ints [VInt 3; VInt 1; VInt 1]).
  repeat constructor; eexists; split; reflexivity.
Defined.

Lemma init_raises_only_through_witness :
  (∃ t, OfObject (Plain (VTuple [VStr "nowhere.Field"; VList []; VDict []]))
        = OfObject (Plain (VTuple t))
        ∧ @south_installed (host true) = true
        ∧ @resurrect (host true) t
          = Raise (OtherError "ImportError" "no such name"))
  ∨ (∃ c, OfObject (Plain (VTuple [VStr "nowhere.Field"; VList []; VDict []]))
          = OfType c
          ∧ construct c (VTuple []) (VDict [])
            = Raise (OtherError "ImportError" "no such name"))
  ∨ @Field__init__ (host true) (<["null" := VBool true]> ∅)
    = Raise (OtherError "ImportError" "no such name").
Proof.
  exact (@init_raises_only_through (host true)
           (OfObject (Plain (VTuple [VStr "nowhere.Field"; VList []; VDict []])))
           ∅ _ eq_refl).
Defined.

End more_examples.
